(** * The fine-tuning driver [train.py], embedded in Rocq

    [train.py] is one straight-line procedure, [main], that calls helper
    functions and library objects one after the other.  None of those
    collaborators is part of the file: they are kept abstract here, as a
    [World] that answers each call with either a returned value or a raised
    exception, and that may look at the whole history of the run to do so
    (so collaborators may be stateful).  [main] itself is written in a small
    error monad that logs every call together with its outcome; the claims
    of the specification are then statements about the logs of all runs. *)

From Stdlib Require Import ZArith List.
From stdpp Require Import base strings gmap list pretty.
Import ListNotations.

Local Open Scope string_scope.
Local Open Scope list_scope.

(** ** Python values that occur in the configuration *)

(** The two fields of [cfg.hugging_face] are only ever tested for
    truthiness, so they are kept as dynamically typed values. *)
Inductive PyValue : Type :=
| PyNone
| PyBool (b : bool)
| PyInt (z : Z)
| PyStr (s : string).

(** Python's [bool(v)]. *)
Definition truthy (v : PyValue) : bool :=
  match v with
  | PyNone => false
  | PyBool b => b
  | PyInt z => negb (Z.eqb z 0)
  | PyStr s => negb (String.eqb s "")
  end.

(** Python's [x and y] on truth values: [y] is only looked at when [x] is
    truthy. *)
Definition py_and (x : PyValue) (y : PyValue) : bool :=
  if truthy x then truthy y else false.

(** A numeric scalar of the configuration, an [int] or a [float].  [main]
    only formats it, so a float is kept as the text [str] gives for it. *)
Inductive PyNumber : Type :=
| NumInt (z : Z)
| NumFloat (repr : string).

(** ** Exceptions *)

Inductive Error : Type :=
| ConfigurationError (msg : string)
| DataError (msg : string)
| ResourceError (msg : string)
| ExternalError (msg : string)
| IndexError (msg : string)
| KeyError (key : string).

(** What a call does: it raises or it returns. *)
Definition Outcome (R : Type) : Type := Error + R.

Definition raised {R : Type} (o : Outcome R) : option Error :=
  match o with
  | inl e => Some e
  | inr _ => None
  end.

(** ** The configuration, as [main] reads it *)

Module Args.
Record t : Type := { model : string }.
End Args.

Module ModelCfg.
Record t : Type := { id : string; settings : list (string * PyValue) }.
End ModelCfg.

Module DatasetCfg.
Record t : Type :=
  { id : string;
    instruction_column_name : string;
    response_column_name : string }.
End DatasetCfg.

Module TrainCfg.
Record t : Type := { epochs : PyNumber; settings : list (string * PyValue) }.
End TrainCfg.

Module HuggingFace.
Record t : Type := { push_to_hub : PyValue; token : PyValue }.
End HuggingFace.

Module Cfg.
Record t : Type :=
  { model : ModelCfg.t;
    dataset : DatasetCfg.t;
    training_arguments : TrainCfg.t;
    hugging_face : HuggingFace.t }.
End Cfg.

(** ** Data *)

(** An example is a Python dict from column names to text. *)
Abbreviation Example := (gmap string string).

(** Modelled from the spec: the dataset returned by [load_dataset], whose
    class is not part of [train.py].  The spec describes it as a dataset
    with named columns whose train/eval partition is the source's own. *)
Record Dataset : Type :=
  { column_names : list string;
    train_split : list Example;
    eval_split : list Example }.

(** ** Opaque library objects, known to [main] only by reference *)

Inductive Tokenizer : Type := TokenizerRef (n : nat).
Inductive Model : Type := ModelRef (n : nat).
Inductive Device : Type := DeviceRef (name : string).
Inductive QuantizationConfig : Type := QuantRef (n : nat).
Inductive PeftConfig : Type := PeftRef (n : nat).
Inductive SftConfig : Type := SftRef (n : nat).
Inductive Trainer : Type := TrainerRef (n : nat).

(** [lambda example: formatting_prompts_func(example, tokenizer)]: a closure
    whose only free variable is the tokenizer. *)
Inductive FormattingFunc : Type := FormattingLambda (tokenizer : Tokenizer).

(** ** The log of a run *)

(** One constructor per call site of [main]; each entry holds the arguments
    the call was made with and its outcome. *)
Inductive Event : Type :=
| EvParseArguments (o : Outcome Args.t)
| EvGetConfig (name : string) (o : Outcome Cfg.t)
| EvSetupOutputDirectory (train_cfg : TrainCfg.t) (model_cfg : ModelCfg.t)
    (dataset_cfg : DatasetCfg.t) (o : Outcome string)
| EvLoggerInfo (msg : string) (o : Outcome unit)
| EvLoadDataset (id : string) (o : Outcome Dataset)
| EvPrepareDatasets (dataset : Dataset) (instruction_col response_col : string)
    (o : Outcome (list Example * list Example))
| EvLoadTokenizer (model_cfg : ModelCfg.t) (o : Outcome Tokenizer)
| EvSetupDeviceAndQuantization (model_cfg : ModelCfg.t)
    (o : Outcome (Device * QuantizationConfig))
| EvLoadModel (model_cfg : ModelCfg.t) (q : QuantizationConfig) (device : Device)
    (o : Outcome Model)
| EvIndex (seq : list Example) (i : nat) (o : Outcome Example)
| EvGetItem (example : Example) (key : string) (o : Outcome string)
| EvGenerateResponse (model : Model) (tokenizer : Tokenizer) (prompt : string)
    (device : Device) (o : Outcome string)
| EvPrintExample (example : Example) (o : Outcome unit)
| EvPrintResponse (response : string) (o : Outcome unit)
| EvCreatePeftConfig (model_cfg : ModelCfg.t) (o : Outcome PeftConfig)
| EvCreateSftConfig (train_cfg : TrainCfg.t) (output_dir : string)
    (o : Outcome SftConfig)
| EvSFTTrainer (model : Model) (tokenizer : Tokenizer)
    (train_dataset eval_dataset : list Example) (formatting_func : FormattingFunc)
    (peft_config : PeftConfig) (args : SftConfig) (o : Outcome Trainer)
| EvTrain (trainer : Trainer) (o : Outcome unit)
| EvEvaluate (trainer : Trainer) (o : Outcome unit)
| EvSaveModel (trainer : Trainer) (o : Outcome unit)
| EvPushToHub (trainer : Trainer) (token : PyValue) (o : Outcome unit)
| EvFromPretrained (path : string) (o : Outcome Model)
| EvTo (model : Model) (device : Device) (o : Outcome Model).

Definition Trace : Type := list Event.

(** The exception an entry of the log ended with, if any. *)
Definition ev_error (ev : Event) : option Error :=
  match ev with
  | EvParseArguments o => raised o
  | EvGetConfig _ o => raised o
  | EvSetupOutputDirectory _ _ _ o => raised o
  | EvLoggerInfo _ o => raised o
  | EvLoadDataset _ o => raised o
  | EvPrepareDatasets _ _ _ o => raised o
  | EvLoadTokenizer _ o => raised o
  | EvSetupDeviceAndQuantization _ o => raised o
  | EvLoadModel _ _ _ o => raised o
  | EvIndex _ _ o => raised o
  | EvGetItem _ _ o => raised o
  | EvGenerateResponse _ _ _ _ o => raised o
  | EvPrintExample _ o => raised o
  | EvPrintResponse _ o => raised o
  | EvCreatePeftConfig _ o => raised o
  | EvCreateSftConfig _ _ o => raised o
  | EvSFTTrainer _ _ _ _ _ _ _ o => raised o
  | EvTrain _ o => raised o
  | EvEvaluate _ o => raised o
  | EvSaveModel _ o => raised o
  | EvPushToHub _ _ o => raised o
  | EvFromPretrained _ o => raised o
  | EvTo _ _ o => raised o
  end.

(** ** The collaborators *)

(** Every function and method [main] calls but does not define.  Each one
    sees its arguments and the log so far. *)
Record World : Type :=
  { parse_arguments : Trace -> Outcome Args.t;
    get_config : string -> Trace -> Outcome Cfg.t;
    setup_output_directory :
      TrainCfg.t -> ModelCfg.t -> DatasetCfg.t -> Trace -> Outcome string;
    logger_info : string -> Trace -> Outcome unit;
    load_dataset : string -> Trace -> Outcome Dataset;
    prepare_datasets :
      Dataset -> string -> string -> Trace ->
      Outcome (list Example * list Example);
    load_tokenizer : ModelCfg.t -> Trace -> Outcome Tokenizer;
    setup_device_and_quantization :
      ModelCfg.t -> Trace -> Outcome (Device * QuantizationConfig);
    load_model :
      ModelCfg.t -> QuantizationConfig -> Device -> Trace -> Outcome Model;
    generate_response :
      Model -> Tokenizer -> string -> Device -> Trace -> Outcome string;
    print_example : Example -> Trace -> Outcome unit;
    print_response : string -> Trace -> Outcome unit;
    create_peft_config : ModelCfg.t -> Trace -> Outcome PeftConfig;
    create_sft_config : TrainCfg.t -> string -> Trace -> Outcome SftConfig;
    SFTTrainer :
      Model -> Tokenizer -> list Example -> list Example -> FormattingFunc ->
      PeftConfig -> SftConfig -> Trace -> Outcome Trainer;
    trainer_train : Trainer -> Trace -> Outcome unit;
    trainer_evaluate : Trainer -> Trace -> Outcome unit;
    trainer_save_model : Trainer -> Trace -> Outcome unit;
    trainer_push_to_hub : Trainer -> PyValue -> Trace -> Outcome unit;
    from_pretrained : string -> Trace -> Outcome Model;
    model_to : Model -> Device -> Trace -> Outcome Model }.

(** ** The monad [main] runs in *)

Definition M (A : Type) : Type := Trace -> Outcome A * Trace.

Definition ret {A : Type} (a : A) : M A := fun tr => (inr a, tr).

Definition bind {A B : Type} (m : M A) (k : A -> M B) : M B :=
  fun tr =>
    match m tr with
    | (inl e, tr') => (inl e, tr')
    | (inr a, tr') => k a tr'
    end.

(** A call: the outcome is computed from the log so far, logged, and either
    returned or raised.  There is no handler anywhere in [main]. *)
Definition call {R : Type} (log : Outcome R -> Event) (f : Trace -> Outcome R)
  : M R :=
  fun tr => (f tr, tr ++ [log (f tr)]).

Notation "x <- m ;; k" := (bind m (fun x => k))
  (at level 100, m at level 99, k at level 200, right associativity).
Notation "m ;; k" := (bind m (fun _ => k))
  (at level 100, k at level 200, right associativity).

(** ** Subscripts *)

(** [seq[i]] on a sequence. *)
Definition index (seq : list Example) (i : nat) : Outcome Example :=
  match seq !! i with
  | Some x => inr x
  | None => inl (IndexError "list index out of range")
  end.

(** [d[key]] on a dict. *)
Definition getitem (d : Example) (key : string) : Outcome string :=
  match d !! key with
  | Some v => inr v
  | None => inl (KeyError key)
  end.

(** Python's [str] on an integer, as used by the f-strings. *)
Definition str_int (z : Z) : string := pretty z.

(** Python's [str] on a numeric scalar. *)
Definition str_number (n : PyNumber) : string :=
  match n with
  | NumInt z => str_int z
  | NumFloat repr => repr
  end.

(** ** [main] *)

(** [f"{args.model}"] is [args.model] itself, the value being a string.
    The collaborators are taken not to mutate the values handed to them:
    [example1] is the same dict at both probes. *)
Definition main (w : World) : M unit :=
  args <- call EvParseArguments (parse_arguments w) ;;
  cfg <- call (EvGetConfig (Args.model args)) (get_config w (Args.model args)) ;;
  let model_cfg := Cfg.model cfg in
  let dataset_cfg := Cfg.dataset cfg in
  let train_cfg := Cfg.training_arguments cfg in
  output_dir <- call (EvSetupOutputDirectory train_cfg model_cfg dataset_cfg)
                  (setup_output_directory w train_cfg model_cfg dataset_cfg) ;;
  let info (msg : string) := call (EvLoggerInfo msg) (logger_info w msg) in
  info ("Model ID: " +:+ ModelCfg.id model_cfg) ;;
  info ("Dataset ID: " +:+ DatasetCfg.id dataset_cfg) ;;
  info ("Output Directory: " +:+ output_dir) ;;
  info ("Training Epochs: " +:+ str_number (TrainCfg.epochs train_cfg)) ;;
  dataset <- call (EvLoadDataset (DatasetCfg.id dataset_cfg))
               (load_dataset w (DatasetCfg.id dataset_cfg)) ;;
  let ic := DatasetCfg.instruction_column_name dataset_cfg in
  let rc := DatasetCfg.response_column_name dataset_cfg in
  splits <-
    call (EvPrepareDatasets dataset ic rc) (prepare_datasets w dataset ic rc) ;;
  let '(train_dataset, eval_dataset) := splits in
  info ("Training Dataset: " +:+ str_int (Z.of_nat (length train_dataset))
        +:+ " examples") ;;
  info ("Evaluation Dataset: " +:+ str_int (Z.of_nat (length eval_dataset))
        +:+ " examples") ;;
  tokenizer <- call (EvLoadTokenizer model_cfg) (load_tokenizer w model_cfg) ;;
  placement <-
    call (EvSetupDeviceAndQuantization (Cfg.model cfg))
      (setup_device_and_quantization w (Cfg.model cfg)) ;;
  let '(device, quantization_config) := placement in
  model <- call (EvLoadModel (Cfg.model cfg) quantization_config device)
             (load_model w (Cfg.model cfg) quantization_config device) ;;
  example1 <- call (EvIndex eval_dataset 0) (fun _ => index eval_dataset 0) ;;
  prompt <- call (EvGetItem example1 "instruction")
              (fun _ => getitem example1 "instruction") ;;
  response <- call (EvGenerateResponse model tokenizer prompt device)
                (generate_response w model tokenizer prompt device) ;;
  call (EvPrintExample example1) (print_example w example1) ;;
  call (EvPrintResponse response) (print_response w response) ;;
  peft_config <- call (EvCreatePeftConfig (Cfg.model cfg))
                   (create_peft_config w (Cfg.model cfg)) ;;
  sft_config <- call (EvCreateSftConfig (Cfg.training_arguments cfg) output_dir)
                  (create_sft_config w (Cfg.training_arguments cfg) output_dir) ;;
  let formatting_func := FormattingLambda tokenizer in
  trainer <- call (EvSFTTrainer model tokenizer train_dataset eval_dataset
                     formatting_func peft_config sft_config)
               (SFTTrainer w model tokenizer train_dataset eval_dataset
                  formatting_func peft_config sft_config) ;;
  call (EvTrain trainer) (trainer_train w trainer) ;;
  call (EvEvaluate trainer) (trainer_evaluate w trainer) ;;
  call (EvSaveModel trainer) (trainer_save_model w trainer) ;;
  (if py_and (HuggingFace.push_to_hub (Cfg.hugging_face cfg))
        (HuggingFace.token (Cfg.hugging_face cfg))
   then
     let token := HuggingFace.token (Cfg.hugging_face cfg) in
     call (EvPushToHub trainer token) (trainer_push_to_hub w trainer token)
   else ret tt) ;;
  loaded <- call (EvFromPretrained output_dir) (from_pretrained w output_dir) ;;
  ft_model <- call (EvTo loaded device) (model_to w loaded device) ;;
  prompt <- call (EvGetItem example1 "instruction")
              (fun _ => getitem example1 "instruction") ;;
  response <- call (EvGenerateResponse ft_model tokenizer prompt device)
                (generate_response w ft_model tokenizer prompt device) ;;
  call (EvPrintExample example1) (print_example w example1) ;;
  call (EvPrintResponse response) (print_response w response).

(** [if __name__ == "__main__": main()]: the interpreter runs [main] from an
    empty log; an exception that reaches the top level ends the process with
    status 1, a normal return with status 0. *)
Definition run (w : World) : Outcome unit * Trace := main w [].

Definition result_of (w : World) : Outcome unit := fst (run w).
Definition trace_of (w : World) : Trace := snd (run w).

Definition exit_status (r : Outcome unit) : Z :=
  match r with
  | inl _ => 1
  | inr _ => 0
  end.

(** ** What a log shows *)

(** The configurations [get_config] returned. *)
Definition configs (tr : Trace) : list Cfg.t :=
  flat_map (fun ev => match ev with
                      | EvGetConfig _ (inr cfg) => [cfg]
                      | _ => []
                      end) tr.

(** The output directories [setup_output_directory] returned. *)
Definition output_dirs (tr : Trace) : list string :=
  flat_map (fun ev => match ev with
                      | EvSetupOutputDirectory _ _ _ (inr d) => [d]
                      | _ => []
                      end) tr.

(** The (train, eval) pairs [prepare_datasets] returned. *)
Definition prepared (tr : Trace) : list (list Example * list Example) :=
  flat_map (fun ev => match ev with
                      | EvPrepareDatasets _ _ _ (inr p) => [p]
                      | _ => []
                      end) tr.

(** The calls of [load_tokenizer]. *)
Definition tokenizer_loads (tr : Trace) : list (ModelCfg.t * Outcome Tokenizer) :=
  flat_map (fun ev => match ev with
                      | EvLoadTokenizer mc o => [(mc, o)]
                      | _ => []
                      end) tr.

(** The calls of [generate_response], with their arguments. *)
Definition probes (tr : Trace) : list (Model * Tokenizer * string * Device) :=
  flat_map (fun ev => match ev with
                      | EvGenerateResponse m t p d _ => [(m, t, p, d)]
                      | _ => []
                      end) tr.

(** The examples handed to [print_example]. *)
Definition printed_examples (tr : Trace) : list Example :=
  flat_map (fun ev => match ev with
                      | EvPrintExample ex _ => [ex]
                      | _ => []
                      end) tr.

(** The trainers [SFTTrainer(...)] returned. *)
Definition trainers (tr : Trace) : list Trainer :=
  flat_map (fun ev => match ev with
                      | EvSFTTrainer _ _ _ _ _ _ _ (inr t) => [t]
                      | _ => []
                      end) tr.

(** The calls of [trainer.push_to_hub]. *)
Definition pushes (tr : Trace) : list (Trainer * PyValue) :=
  flat_map (fun ev => match ev with
                      | EvPushToHub t tok _ => [(t, tok)]
                      | _ => []
                      end) tr.

(** The exceptions raised during the run, in order. *)
Definition errors (tr : Trace) : list Error := omap ev_error tr.

(** The operations of the training phase and the two probes. *)
Inductive Op : Type :=
| OpGenerate (m : Model)
| OpTrain (t : Trainer)
| OpEvaluate (t : Trainer)
| OpSaveModel (t : Trainer)
| OpPushToHub (t : Trainer) (token : PyValue)
| OpFromPretrained (path : string)
| OpTo (d : Device).

Definition op_of (ev : Event) : option Op :=
  match ev with
  | EvGenerateResponse m _ _ _ _ => Some (OpGenerate m)
  | EvTrain t _ => Some (OpTrain t)
  | EvEvaluate t _ => Some (OpEvaluate t)
  | EvSaveModel t _ => Some (OpSaveModel t)
  | EvPushToHub t tok _ => Some (OpPushToHub t tok)
  | EvFromPretrained path _ => Some (OpFromPretrained path)
  | EvTo _ d _ => Some (OpTo d)
  | _ => None
  end.

Definition ops (tr : Trace) : list Op := omap op_of tr.

(** The subscripts [seq[i]] evaluated on a sequence of examples. *)
Definition indexings (tr : Trace) : list (list Example * nat) :=
  flat_map (fun ev => match ev with
                      | EvIndex seq i _ => [(seq, i)]
                      | _ => []
                      end) tr.

(** The models [load_model] returned. *)
Definition loaded_models (tr : Trace) : list Model :=
  flat_map (fun ev => match ev with
                      | EvLoadModel _ _ _ (inr m) => [m]
                      | _ => []
                      end) tr.

(** Whether the log has an entry of the training phase: adapter or trainer
    configuration, the construction of the trainer, or one of its
    operations. *)
Definition training_phase_started (tr : Trace) : bool :=
  existsb (fun ev => match ev with
                     | EvCreatePeftConfig _ _
                     | EvCreateSftConfig _ _ _
                     | EvSFTTrainer _ _ _ _ _ _ _ _
                     | EvTrain _ _
                     | EvEvaluate _ _
                     | EvSaveModel _ _
                     | EvPushToHub _ _ _ => true
                     | _ => false
                     end) tr.

(** The part of the log that comes after [trainer.save_model()] returned. *)
Fixpoint after_save (tr : Trace) : option Trace :=
  match tr with
  | [] => None
  | EvSaveModel _ (inr _) :: rest => Some rest
  | _ :: rest => after_save rest
  end.

(** ** Properties of a log *)

(** The training phase ran once and in order: the log shows the
    pre-training probe, then [train], [evaluate] and [save_model] on the one
    trainer that was constructed, then [push_to_hub] exactly when the flag
    and the token of the run's configuration are both truthy, then the
    reload from the output directory, the move of the reloaded model to the
    device and the probe of that model; and no entry raised. *)
Definition training_phase_in_order (tr : Trace) : Prop :=
  exists cfg dir t base loaded ft dev,
    configs tr = [cfg] /\
    output_dirs tr = [dir] /\
    trainers tr = [t] /\
    errors tr = [] /\
    In (EvFromPretrained dir (inr loaded)) tr /\
    In (EvTo loaded dev (inr ft)) tr /\
    ops tr =
      [OpGenerate base; OpTrain t; OpEvaluate t; OpSaveModel t] ++
      (if py_and (HuggingFace.push_to_hub (Cfg.hugging_face cfg))
            (HuggingFace.token (Cfg.hugging_face cfg))
       then [OpPushToHub t (HuggingFace.token (Cfg.hugging_face cfg))]
       else []) ++
      [OpFromPretrained dir; OpTo dev; OpGenerate ft].

(** Both probes were made on the first example of the eval split: the
    subscript [eval_dataset[0]] was evaluated once, and the prompt of either
    probe is the ["instruction"] entry of the example it gave; the examples
    printed are that same example. *)
Definition probes_share_first_example (tr : Trace) : Prop :=
  exists train eval ex p m1 m2 tok d,
    prepared tr = [(train, eval)] /\
    eval !! 0 = Some ex /\
    ex !! "instruction" = Some p /\
    indexings tr = [(eval, 0)] /\
    probes tr = [(m1, tok, p, d); (m2, tok, p, d)] /\
    Forall (eq ex) (printed_examples tr).

(** Every probe was sent the text found under the key [col] of the first
    example of the eval split. *)
Definition probe_reads_column (col : string) (tr : Trace) : Prop :=
  forall train eval ex m tok p d,
    prepared tr = [(train, eval)] ->
    eval !! 0 = Some ex ->
    In (m, tok, p, d) (probes tr) ->
    ex !! col = Some p.

(** ** Concrete worlds *)

(** A world in which every collaborator returns; it is used to run [main] on
    concrete inputs. *)
Definition scripted_world (args : Args.t) (cfg : Cfg.t) (dataset : Dataset)
    (splits : list Example * list Example) : World :=
  {| parse_arguments := fun _ => inr args;
     get_config := fun _ _ => inr cfg;
     setup_output_directory := fun _ _ _ _ => inr "./results/run";
     logger_info := fun _ _ => inr tt;
     load_dataset := fun _ _ => inr dataset;
     prepare_datasets := fun _ _ _ _ => inr splits;
     load_tokenizer := fun _ _ => inr (TokenizerRef 0);
     setup_device_and_quantization :=
       fun _ _ => inr (DeviceRef "cpu", QuantRef 0);
     load_model := fun _ _ _ _ => inr (ModelRef 0);
     generate_response :=
       fun m _ prompt _ _ =>
         match m with
         | ModelRef 0 => inr ("base: " +:+ prompt)
         | ModelRef _ => inr ("tuned: " +:+ prompt)
         end;
     print_example := fun _ _ => inr tt;
     print_response := fun _ _ => inr tt;
     create_peft_config := fun _ _ => inr (PeftRef 0);
     create_sft_config := fun _ _ _ => inr (SftRef 0);
     SFTTrainer := fun _ _ _ _ _ _ _ _ => inr (TrainerRef 0);
     trainer_train := fun _ _ => inr tt;
     trainer_evaluate := fun _ _ => inr tt;
     trainer_save_model := fun _ _ => inr tt;
     trainer_push_to_hub := fun _ _ _ => inr tt;
     from_pretrained := fun _ _ => inr (ModelRef 1);
     model_to := fun _ _ _ => inr (ModelRef 2) |}.

Definition demo_args : Args.t := {| Args.model := "tiny" |}.

Definition demo_cfg (instruction_col : string) (push token : PyValue) : Cfg.t :=
  {| Cfg.model := {| ModelCfg.id := "org/tiny"; ModelCfg.settings := [] |};
     Cfg.dataset :=
       {| DatasetCfg.id := "org/qa";
          DatasetCfg.instruction_column_name := instruction_col;
          DatasetCfg.response_column_name := "response" |};
     Cfg.training_arguments :=
       {| TrainCfg.epochs := NumInt 1; TrainCfg.settings := [] |};
     Cfg.hugging_face :=
       {| HuggingFace.push_to_hub := push; HuggingFace.token := token |} |}.

Definition demo_example : Example :=
  <["instruction" := "Say hi"]> (<["response" := "hi"]> ∅).

Definition demo_dataset : Dataset :=
  {| column_names := ["instruction"; "response"];
     train_split := [demo_example; demo_example];
     eval_split := [demo_example] |}.

(** All collaborators succeed, on a dataset with the default column names. *)
Definition demo_world (push token : PyValue) : World :=
  scripted_world demo_args (demo_cfg "instruction" push token) demo_dataset
    ([demo_example; demo_example], [demo_example]).

(** A dataset whose instruction column is called ["prompt"], and a
    configuration that says so. *)
Definition prompt_example : Example :=
  <["prompt" := "Say hi"]> (<["response" := "hi"]> ∅).

Definition prompt_dataset : Dataset :=
  {| column_names := ["prompt"; "response"];
     train_split := [prompt_example];
     eval_split := [prompt_example] |}.

Definition prompt_world : World :=
  scripted_world demo_args (demo_cfg "prompt" (PyBool false) PyNone)
    prompt_dataset ([prompt_example], [prompt_example]).

(** The same, with a further column that happens to be called
    ["instruction"]. *)
Definition two_column_example : Example :=
  <["prompt" := "Say hi"]>
    (<["instruction" := "unrelated"]> (<["response" := "hi"]> ∅)).

Definition two_column_world : World :=
  scripted_world demo_args (demo_cfg "prompt" (PyBool false) PyNone)
    {| column_names := ["prompt"; "instruction"; "response"];
       train_split := [two_column_example];
       eval_split := [two_column_example] |}
    ([two_column_example], [two_column_example]).

(** As [demo_world], but [prepare_datasets] returns an empty eval split. *)
Definition empty_eval_world : World :=
  scripted_world demo_args (demo_cfg "instruction" (PyBool false) PyNone)
    demo_dataset ([demo_example; demo_example], []).

(** As [demo_world], but the trainer runs out of memory in [train]. *)
Definition oom_world : World :=
  let w := demo_world (PyBool true) (PyStr "hf_token") in
  {| parse_arguments := parse_arguments w;
     get_config := get_config w;
     setup_output_directory := setup_output_directory w;
     logger_info := logger_info w;
     load_dataset := load_dataset w;
     prepare_datasets := prepare_datasets w;
     load_tokenizer := load_tokenizer w;
     setup_device_and_quantization := setup_device_and_quantization w;
     load_model := load_model w;
     generate_response := generate_response w;
     print_example := print_example w;
     print_response := print_response w;
     create_peft_config := create_peft_config w;
     create_sft_config := create_sft_config w;
     SFTTrainer := SFTTrainer w;
     trainer_train := fun _ _ => inl (ExternalError "CUDA out of memory");
     trainer_evaluate := trainer_evaluate w;
     trainer_save_model := trainer_save_model w;
     trainer_push_to_hub := trainer_push_to_hub w;
     from_pretrained := from_pretrained w;
     model_to := model_to w |}.

(** ** More of what a log shows *)

(** The arguments [parse_arguments] returned. *)
Definition parsed (tr : Trace) : list Args.t :=
  flat_map (fun ev => match ev with
                      | EvParseArguments (inr a) => [a]
                      | _ => []
                      end) tr.

(** The names [get_config] was asked for. *)
Definition config_requests (tr : Trace) : list string :=
  flat_map (fun ev => match ev with
                      | EvGetConfig name _ => [name]
                      | _ => []
                      end) tr.

(** The output directories handed to [create_sft_config]. *)
Definition sft_dirs (tr : Trace) : list string :=
  flat_map (fun ev => match ev with
                      | EvCreateSftConfig _ d _ => [d]
                      | _ => []
                      end) tr.

(** The paths handed to [AutoModelForCausalLM.from_pretrained]. *)
Definition reload_paths (tr : Trace) : list string :=
  flat_map (fun ev => match ev with
                      | EvFromPretrained path _ => [path]
                      | _ => []
                      end) tr.

(** The adapter and trainer configurations that were returned. *)
Definition peft_configs (tr : Trace) : list PeftConfig :=
  flat_map (fun ev => match ev with
                      | EvCreatePeftConfig _ (inr c) => [c]
                      | _ => []
                      end) tr.

Definition sft_configs (tr : Trace) : list SftConfig :=
  flat_map (fun ev => match ev with
                      | EvCreateSftConfig _ _ (inr c) => [c]
                      | _ => []
                      end) tr.

(** The arguments of the calls [SFTTrainer(...)]. *)
Definition trainer_calls (tr : Trace)
  : list (Model * Tokenizer * list Example * list Example * FormattingFunc
          * PeftConfig * SftConfig) :=
  flat_map (fun ev => match ev with
                      | EvSFTTrainer m tok train eval f p s _ =>
                          [(m, tok, train, eval, f, p, s)]
                      | _ => []
                      end) tr.

(** The messages handed to [logger.info]. *)
Definition messages (tr : Trace) : list string :=
  flat_map (fun ev => match ev with
                      | EvLoggerInfo msg _ => [msg]
                      | _ => []
                      end) tr.

(** The messages of [main], as its f-strings build them: the four of
    lines 19 to 22 and the two of lines 29 and 30. *)
Definition config_messages (cfg : Cfg.t) (output_dir : string) : list string :=
  [ "Model ID: " +:+ ModelCfg.id (Cfg.model cfg);
    "Dataset ID: " +:+ DatasetCfg.id (Cfg.dataset cfg);
    "Output Directory: " +:+ output_dir;
    "Training Epochs: " +:+
      str_number (TrainCfg.epochs (Cfg.training_arguments cfg)) ].

Definition size_messages (train_dataset eval_dataset : list Example)
  : list string :=
  [ "Training Dataset: " +:+ str_int (Z.of_nat (length train_dataset))
      +:+ " examples";
    "Evaluation Dataset: " +:+ str_int (Z.of_nat (length eval_dataset))
      +:+ " examples" ].

(** As [demo_world], with a fractional epoch count, and [load_dataset]
    failing. *)
Definition float_epochs_cfg : Cfg.t :=
  {| Cfg.model := Cfg.model (demo_cfg "instruction" (PyBool false) PyNone);
     Cfg.dataset := Cfg.dataset (demo_cfg "instruction" (PyBool false) PyNone);
     Cfg.training_arguments :=
       {| TrainCfg.epochs := NumFloat "0.5"; TrainCfg.settings := [] |};
     Cfg.hugging_face :=
       Cfg.hugging_face (demo_cfg "instruction" (PyBool false) PyNone) |}.

Definition unreachable_dataset_world : World :=
  let w := scripted_world demo_args float_epochs_cfg demo_dataset
             ([demo_example; demo_example], [demo_example]) in
  {| parse_arguments := parse_arguments w;
     get_config := get_config w;
     setup_output_directory := setup_output_directory w;
     logger_info := logger_info w;
     load_dataset := fun _ _ => inl (DataError "dataset not found");
     prepare_datasets := prepare_datasets w;
     load_tokenizer := load_tokenizer w;
     setup_device_and_quantization := setup_device_and_quantization w;
     load_model := load_model w;
     generate_response := generate_response w;
     print_example := print_example w;
     print_response := print_response w;
     create_peft_config := create_peft_config w;
     create_sft_config := create_sft_config w;
     SFTTrainer := SFTTrainer w;
     trainer_train := trainer_train w;
     trainer_evaluate := trainer_evaluate w;
     trainer_save_model := trainer_save_model w;
     trainer_push_to_hub := trainer_push_to_hub w;
     from_pretrained := from_pretrained w;
     model_to := model_to w |}.

(** The (device, quantization) pairs [setup_device_and_quantization]
    returned. *)
Definition placements (tr : Trace) : list (Device * QuantizationConfig) :=
  flat_map (fun ev => match ev with
                      | EvSetupDeviceAndQuantization _ (inr p) => [p]
                      | _ => []
                      end) tr.

(** The quantization and device [load_model] was called with. *)
Definition model_loads (tr : Trace) : list (QuantizationConfig * Device) :=
  flat_map (fun ev => match ev with
                      | EvLoadModel _ q d _ => [(q, d)]
                      | _ => []
                      end) tr.

(** Every device that was handed to a call. *)
Definition devices_used (tr : Trace) : list Device :=
  flat_map (fun ev => match ev with
                      | EvLoadModel _ _ d _ => [d]
                      | EvGenerateResponse _ _ _ d _ => [d]
                      | EvTo _ d _ => [d]
                      | _ => []
                      end) tr.




(** The responses [generate_response] returned, and those handed to
    [print_response]. *)
Definition generated (tr : Trace) : list string :=
  flat_map (fun ev => match ev with
                      | EvGenerateResponse _ _ _ _ (inr r) => [r]
                      | _ => []
                      end) tr.

Definition printed_responses (tr : Trace) : list string :=
  flat_map (fun ev => match ev with
                      | EvPrintResponse r _ => [r]
                      | _ => []
                      end) tr.

(** The datasets [load_dataset] returned, and those handed to
    [prepare_datasets]. *)
Definition loaded_datasets (tr : Trace) : list Dataset :=
  flat_map (fun ev => match ev with
                      | EvLoadDataset _ (inr ds) => [ds]
                      | _ => []
                      end) tr.

Definition prepared_from (tr : Trace) : list Dataset :=
  flat_map (fun ev => match ev with
                      | EvPrepareDatasets ds _ _ _ => [ds]
                      | _ => []
                      end) tr.

(** An entry of the log takes every piece of configuration it is given
    from [cfg]. *)
Definition uses_cfg (cfg : Cfg.t) (ev : Event) : Prop :=
  match ev with
  | EvSetupOutputDirectory t m d _ =>
      t = Cfg.training_arguments cfg /\ m = Cfg.model cfg /\ d = Cfg.dataset cfg
  | EvLoadDataset id _ => id = DatasetCfg.id (Cfg.dataset cfg)
  | EvPrepareDatasets _ ic rc _ =>
      ic = DatasetCfg.instruction_column_name (Cfg.dataset cfg) /\
      rc = DatasetCfg.response_column_name (Cfg.dataset cfg)
  | EvLoadTokenizer m _ => m = Cfg.model cfg
  | EvSetupDeviceAndQuantization m _ => m = Cfg.model cfg
  | EvLoadModel m _ _ _ => m = Cfg.model cfg
  | EvCreatePeftConfig m _ => m = Cfg.model cfg
  | EvCreateSftConfig t _ _ => t = Cfg.training_arguments cfg
  | EvPushToHub _ tok _ => tok = HuggingFace.token (Cfg.hugging_face cfg)
  | _ => True
  end.

(** The call sites of [main], by what they call. *)
Inductive Kind : Type :=
| KParseArguments | KGetConfig | KSetupOutputDirectory | KLoggerInfo
| KLoadDataset | KPrepareDatasets | KLoadTokenizer
| KSetupDeviceAndQuantization | KLoadModel | KIndex | KGetItem
| KGenerateResponse | KPrintExample | KPrintResponse | KCreatePeftConfig
| KCreateSftConfig | KSFTTrainer | KTrain | KEvaluate | KSaveModel
| KPushToHub | KFromPretrained | KTo.

Definition kind_of (ev : Event) : Kind :=
  match ev with
  | EvParseArguments _ => KParseArguments
  | EvGetConfig _ _ => KGetConfig
  | EvSetupOutputDirectory _ _ _ _ => KSetupOutputDirectory
  | EvLoggerInfo _ _ => KLoggerInfo
  | EvLoadDataset _ _ => KLoadDataset
  | EvPrepareDatasets _ _ _ _ => KPrepareDatasets
  | EvLoadTokenizer _ _ => KLoadTokenizer
  | EvSetupDeviceAndQuantization _ _ => KSetupDeviceAndQuantization
  | EvLoadModel _ _ _ _ => KLoadModel
  | EvIndex _ _ _ => KIndex
  | EvGetItem _ _ _ => KGetItem
  | EvGenerateResponse _ _ _ _ _ => KGenerateResponse
  | EvPrintExample _ _ => KPrintExample
  | EvPrintResponse _ _ => KPrintResponse
  | EvCreatePeftConfig _ _ => KCreatePeftConfig
  | EvCreateSftConfig _ _ _ => KCreateSftConfig
  | EvSFTTrainer _ _ _ _ _ _ _ _ => KSFTTrainer
  | EvTrain _ _ => KTrain
  | EvEvaluate _ _ => KEvaluate
  | EvSaveModel _ _ => KSaveModel
  | EvPushToHub _ _ _ => KPushToHub
  | EvFromPretrained _ _ => KFromPretrained
  | EvTo _ _ _ => KTo
  end.

Definition kinds (tr : Trace) : list Kind := map kind_of tr.

(** The calls of [main] from top to bottom, lines 9 to 68; [publish] says
    whether the condition of line 61 holds. *)
Definition script (publish : bool) : list Kind :=
  [ KParseArguments; KGetConfig; KSetupOutputDirectory;
    KLoggerInfo; KLoggerInfo; KLoggerInfo; KLoggerInfo;
    KLoadDataset; KPrepareDatasets; KLoggerInfo; KLoggerInfo;
    KLoadTokenizer; KSetupDeviceAndQuantization; KLoadModel;
    KIndex; KGetItem; KGenerateResponse; KPrintExample; KPrintResponse;
    KCreatePeftConfig; KCreateSftConfig; KSFTTrainer;
    KTrain; KEvaluate; KSaveModel ] ++
  (if publish then [KPushToHub] else []) ++
  [ KFromPretrained; KTo; KGetItem; KGenerateResponse;
    KPrintExample; KPrintResponse ].

(** The condition of line 61 on the configuration of the run, if the run
    got one. *)
Definition publish_decision (tr : Trace) : bool :=
  match configs tr with
  | cfg :: _ => py_and (HuggingFace.push_to_hub (Cfg.hugging_face cfg))
                  (HuggingFace.token (Cfg.hugging_face cfg))
  | [] => false
  end.

(** As [demo_world] with publishing on, but the upload fails. *)
Definition upload_fails_world : World :=
  let w := demo_world (PyBool true) (PyStr "hf_token") in
  {| parse_arguments := parse_arguments w;
     get_config := get_config w;
     setup_output_directory := setup_output_directory w;
     logger_info := logger_info w;
     load_dataset := load_dataset w;
     prepare_datasets := prepare_datasets w;
     load_tokenizer := load_tokenizer w;
     setup_device_and_quantization := setup_device_and_quantization w;
     load_model := load_model w;
     generate_response := generate_response w;
     print_example := print_example w;
     print_response := print_response w;
     create_peft_config := create_peft_config w;
     create_sft_config := create_sft_config w;
     SFTTrainer := SFTTrainer w;
     trainer_train := trainer_train w;
     trainer_evaluate := trainer_evaluate w;
     trainer_save_model := trainer_save_model w;
     trainer_push_to_hub := fun _ _ _ => inl (ExternalError "401 Unauthorized");
     from_pretrained := from_pretrained w;
     model_to := model_to w |}.

(** ** Stepping through a run *)

Lemma bind_call {R B : Type} (log : Outcome R -> Event) (f : Trace -> Outcome R)
    (k : R -> M B) (tr : Trace) :
  bind (call log f) k tr =
  match f tr with
  | inl e => (inl e, tr ++ [log (inl e)])
  | inr a => k a (tr ++ [log (inr a)])
  end.
Proof. unfold bind, call. destruct (f tr); reflexivity. Qed.

Lemma bind_ret {A B : Type} (a : A) (k : A -> M B) (tr : Trace) :
  bind (ret a) k tr = k a tr.
Proof. reflexivity. Qed.

Lemma call_run {R : Type} (log : Outcome R -> Event) (f : Trace -> Outcome R)
    (tr : Trace) :
  call log f tr =
  match f tr with
  | inl e => (inl e, tr ++ [log (inl e)])
  | inr a => (inr a, tr ++ [log (inr a)])
  end.
Proof. unfold call. destruct (f tr); reflexivity. Qed.

Ltac case_outcome :=
  cbv beta iota zeta;
  try match goal with
      | |- context [match ?o with inl _ => _ | inr _ => _ end] =>
          let E := fresh "E" in
          lazymatch o with
          | index _ _ => destruct o as [? | ?] eqn:E
          | getitem _ _ => destruct o as [? | ?] eqn:E
          | _ => destruct o as [? | ?]
          end;
          cbv beta iota zeta
      end;
  try match goal with
      | u : unit |- _ => destruct u
      end;
  simpl app.

Ltac step_call := rewrite bind_call; case_outcome.

Ltac step_pair :=
  match goal with
  | |- context [let '(_, _) := ?p in _] => destruct p; cbv beta zeta iota
  end.

Ltac step_if :=
  match goal with
  | |- context [bind (if ?c then _ else _) _ _] =>
      let E := fresh "E" in
      destruct c eqn:E; [ | rewrite bind_ret ]
  end.

Ltac step_last := rewrite call_run; case_outcome.

(** Runs [main] to the end, one goal per place where the run can stop; in
    each of them the result and the log of the run are known. *)
Ltac exec w :=
  let res := fresh "res" in
  let tr := fresh "tr" in
  let Hrun := fresh "Hrun" in
  unfold result_of, trace_of;
  destruct (run w) as [res tr] eqn:Hrun;
  cbn [fst snd];
  revert Hrun;
  unfold run, main;
  repeat first [ step_call | step_pair | step_if | step_last ];
  intros Hrun; injection Hrun as <- <-.

(** An entry is in a log that is written out. *)
Ltac in_log := cbn [In]; repeat first [ left; reflexivity | right ].

Lemma index_inr (seq : list Example) (i : nat) (x : Example) :
  index seq i = inr x -> seq !! i = Some x.
Proof. unfold index. destruct (seq !! i); congruence. Qed.

Lemma index_nil (i : nat) (x : Example) : index [] i <> inr x.
Proof. unfold index. rewrite lookup_nil. discriminate. Qed.

Lemma index_nil_inl (i : nat) (e : Error) :
  index [] i = inl e -> e = IndexError "list index out of range".
Proof. unfold index. rewrite lookup_nil. congruence. Qed.

Lemma getitem_inr (d : Example) (key v : string) :
  getitem d key = inr v -> d !! key = Some v.
Proof. unfold getitem. destruct (d !! key); congruence. Qed.

(** ** The order of the training phase *)

(** C6. In every successful run the log shows, in this order and once each:
    the pre-training probe, [train], [evaluate], [save_model], then
    [push_to_hub] exactly when the flag and the token are both truthy, then
    the reload from the output directory, its move to the device, and the
    second probe on the reloaded model; all on one trainer, the one
    [SFTTrainer] returned, and without any exception. *)
Theorem trainer_operations_once_in_order (w : World) :
  result_of w = inr tt -> training_phase_in_order (trace_of w).
Proof.
  exec w; try discriminate; intros _.
  all: do 7 eexists; cbn.
  all: repeat match goal with
              | |- _ /\ _ => split
              end; try reflexivity.
  all: try (match goal with
            | H : py_and _ _ = _ |- _ => rewrite H
            end; reflexivity).
  all: in_log.
Qed.

Lemma trainer_operations_once_in_order_witness :
  result_of (demo_world (PyBool true) (PyStr "hf_token")) = inr tt /\
  training_phase_in_order (trace_of (demo_world (PyBool true) (PyStr "hf_token"))).
Proof.
  split; [ vm_compute; reflexivity | ].
  apply trainer_operations_once_in_order. vm_compute; reflexivity.
Defined.

(** ** Publishing *)

Lemma py_and_true (x y : PyValue) :
  py_and x y = true <-> truthy x = true /\ truthy y = true.
Proof.
  unfold py_and. destruct (truthy x), (truthy y); split; intros; try tauto;
    try discriminate; destruct H; discriminate.
Qed.

Lemma py_and_falsy_token (x y : PyValue) : truthy y = false -> py_and x y = false.
Proof. unfold py_and. intros ->. destruct (truthy x); reflexivity. Qed.

(** C2. Let [cfg] be the configuration of the run; "set" and "present" are
    Python truthiness of [cfg.hugging_face.push_to_hub] and
    [cfg.hugging_face.token].  A run never calls [push_to_hub] unless both
    are truthy.  Once [save_model] has returned, [push_to_hub] is called if
    and only if both are truthy, and then with that token; when it is not
    called, the very next call is the reload of the fine-tuned model from
    the output directory: the run goes on, nothing is raised in between. *)
Theorem publish_iff_flag_and_token (w : World) (cfg : Cfg.t) :
  configs (trace_of w) = [cfg] ->
  let flag := HuggingFace.push_to_hub (Cfg.hugging_face cfg) in
  let token := HuggingFace.token (Cfg.hugging_face cfg) in
  (pushes (trace_of w) <> [] -> truthy flag = true /\ truthy token = true) /\
  (forall rest, after_save (trace_of w) = Some rest ->
     (pushes (trace_of w) <> [] <-> truthy flag = true /\ truthy token = true) /\
     (pushes (trace_of w) <> [] ->
        exists t, trainers (trace_of w) = [t] /\
                  pushes (trace_of w) = [(t, token)]) /\
     (pushes (trace_of w) = [] ->
        exists dir o, output_dirs (trace_of w) = [dir] /\
                      head rest = Some (EvFromPretrained dir o))).
Proof.
  exec w.
  all: cbn [configs flat_map app].
  all: intros Hcfg; try discriminate Hcfg; injection Hcfg as <-.
  all: cbv zeta; split; [ | intros rest ]; cbn.
  all: try (intros Hne; contradiction Hne; reflexivity).
  all: try (intros Hrest; discriminate Hrest).
  all: try (intros Hrest; injection Hrest as <-).
  all: match goal with
       | H : py_and ?x ?y = _ |- _ =>
           let Hand := fresh "Hand" in
           pose proof (py_and_true x y) as Hand;
           rewrite H in Hand; destruct Hand as [Hand1 Hand2]
       end.
  all: try (intros _; apply Hand1; reflexivity).
  all: split; [ split | split ].
  all: try (intros _; apply Hand1; reflexivity).
  all: try (intros _; discriminate).
  all: try (intros Hne; contradiction Hne; reflexivity).
  all: try (intros Hboth; apply Hand2 in Hboth; discriminate Hboth).
  all: try (intros Hnil; discriminate Hnil).
  all: intros _; repeat eexists; reflexivity.
Qed.

Lemma publish_iff_flag_and_token_witness :
  let w := demo_world (PyBool true) PyNone in
  let cfg := demo_cfg "instruction" (PyBool true) PyNone in
  configs (trace_of w) = [cfg] /\
  after_save (trace_of w) <> None /\
  pushes (trace_of w) = [] /\
  result_of w = inr tt.
Proof.
  intros w cfg.
  assert (Hcfg : configs (trace_of w) = [cfg]) by (vm_compute; reflexivity).
  destruct (after_save (trace_of w)) as [rest | ] eqn:Hrest;
    [ | vm_compute in Hrest; discriminate ].
  destruct (publish_iff_flag_and_token w cfg Hcfg) as [_ Hsaved].
  destruct (Hsaved rest Hrest) as (Hiff & _ & _).
  split; [ exact Hcfg | ].
  split; [ discriminate | ].
  split; [ | vm_compute; reflexivity ].
  destruct (pushes (trace_of w)) as [ | p l ] eqn:Hp; [ reflexivity | ].
  assert (Hne : p :: l <> []) by discriminate.
  apply Hiff in Hne. destruct Hne as [_ Htok]. discriminate Htok.
Defined.


(** ** Failures *)

(** C7. [main] has no handler.  Whenever a call of the run raises [e], the
    run ends there: [e] is the result of [main], unchanged, the failing call
    is the last entry of the log, it is the only exception of the run, and
    the process exits with status 1.  When no call raises, [main] returns,
    the process exits with status 0, and the log ends with the second probe
    and the printing of its example and response. *)
Theorem failures_abort_the_run (w : World) :
  (forall ev e, In ev (trace_of w) -> ev_error ev = Some e ->
     result_of w = inl e /\
     exit_status (result_of w) = 1%Z /\
     last (trace_of w) = Some ev /\
     errors (trace_of w) = [e]) /\
  (errors (trace_of w) = [] ->
     result_of w = inr tt /\
     exit_status (result_of w) = 0%Z /\
     length (probes (trace_of w)) = 2 /\
     exists pre ft tok p d r ex,
       trace_of w =
         pre ++ [EvGenerateResponse ft tok p d (inr r);
                 EvPrintExample ex (inr tt);
                 EvPrintResponse r (inr tt)]).
Proof.
  exec w.
  all: split;
    [ intros ev err Hin Herr; cbn [In] in Hin;
      repeat (destruct Hin as [<- | Hin]; [ try discriminate Herr | ]);
      try contradiction;
      injection Herr as <-; repeat split; reflexivity
    | cbn; intros Hnone; try discriminate Hnone ].
  all: repeat split; try reflexivity.
  all: match goal with
       | |- context [@eq Trace ?l] =>
           exists (take (length l - 3) l); repeat eexists
       end.
Qed.

Lemma failures_abort_the_run_witness :
  let failing := EvTrain (TrainerRef 0) (inl (ExternalError "CUDA out of memory")) in
  In failing (trace_of oom_world) /\
  result_of oom_world = inl (ExternalError "CUDA out of memory") /\
  exit_status (result_of oom_world) = 1%Z /\
  last (trace_of oom_world) = Some failing.
Proof.
  intros failing.
  assert (Hin : In failing (trace_of oom_world)) by (vm_compute; in_log).
  destruct (failures_abort_the_run oom_world) as [Hraise _].
  destruct (Hraise failing _ Hin eq_refl) as (Hres & Hexit & Hlast & _).
  split; [ exact Hin | ].
  split; [ exact Hres | ].
  split; [ exact Hexit | exact Hlast ].
Defined.

(** ** Falsy tokens *)

(** C8. Presence of the token is its truthiness.  Whatever falsy value
    [cfg.hugging_face.token] holds ([None], the empty string, [0],
    [False]), and whatever the flag, the run never calls [push_to_hub]; and
    once [save_model] has returned, the very next call is the reload from
    the output directory: no exception and no logging call comes from the
    skipped step. *)
Theorem falsy_token_skips_publish (w : World) (cfg : Cfg.t) :
  configs (trace_of w) = [cfg] ->
  truthy (HuggingFace.token (Cfg.hugging_face cfg)) = false ->
  pushes (trace_of w) = [] /\
  (forall rest, after_save (trace_of w) = Some rest ->
     exists dir o, output_dirs (trace_of w) = [dir] /\
                   head rest = Some (EvFromPretrained dir o)).
Proof.
  exec w.
  all: cbn [configs flat_map app].
  all: intros Hcfg; try discriminate Hcfg; injection Hcfg as <-.
  all: intros Hfalsy.
  all: try match goal with
           | H : py_and ?x ?y = true |- _ =>
               rewrite (py_and_falsy_token x y Hfalsy) in H; discriminate H
           end.
  all: split; [ reflexivity | intros rest; cbn ].
  all: intros Hrest; try discriminate Hrest; injection Hrest as <-.
  all: repeat eexists; reflexivity.
Qed.

Lemma falsy_token_skips_publish_witness :
  let w := demo_world (PyBool true) (PyStr "") in
  configs (trace_of w) = [demo_cfg "instruction" (PyBool true) (PyStr "")] /\
  truthy (PyStr "") = false /\
  pushes (trace_of w) = [] /\
  (forall rest, after_save (trace_of w) = Some rest ->
     exists dir o, output_dirs (trace_of w) = [dir] /\
                   head rest = Some (EvFromPretrained dir o)).
Proof.
  intros w.
  split; [ vm_compute; reflexivity | ].
  split; [ reflexivity | ].
  apply (falsy_token_skips_publish w
           (demo_cfg "instruction" (PyBool true) (PyStr ""))).
  - vm_compute; reflexivity.
  - reflexivity.
Defined.

(** ** An empty evaluation split *)

(** C9. When [prepare_datasets] returns an empty eval sequence, [main]
    raises: the log has no probe and no entry of the training phase (no
    adapter or trainer configuration, no trainer, no [train], [evaluate],
    [save_model] or [push_to_hub], no reload).  If the run gets as far as
    the subscript, that is if [load_model] has returned, the exception is
    the [IndexError] of [eval_dataset[0]] and that subscript is the last
    entry of the log. *)
Theorem empty_eval_split_fails_before_training (w : World)
    (train : list Example) :
  prepared (trace_of w) = [(train, [])] ->
  (exists e, result_of w = inl e) /\
  training_phase_started (trace_of w) = false /\
  ops (trace_of w) = [] /\
  (loaded_models (trace_of w) <> [] ->
   result_of w = inl (IndexError "list index out of range") /\
   last (trace_of w) =
     Some (EvIndex [] 0 (inl (IndexError "list index out of range")))).
Proof.
  exec w.
  all: cbn [prepared flat_map app].
  all: intros Hprep; try discriminate Hprep.
  all: injection Hprep as <- ->.
  all: try match goal with
           | H : index [] _ = inr _ |- _ => destruct (index_nil _ _ H)
           end.
  all: try match goal with
           | H : index [] _ = inl _ |- _ => apply index_nil_inl in H; subst
           end.
  all: split; [ eexists; reflexivity | ].
  all: split; [ reflexivity | ].
  all: split; [ reflexivity | ].
  all: cbn; intros Hloaded; try (contradiction Hloaded; reflexivity).
  all: split; reflexivity.
Qed.

Lemma empty_eval_split_fails_before_training_witness :
  prepared (trace_of empty_eval_world) = [([demo_example; demo_example], [])] /\
  result_of empty_eval_world = inl (IndexError "list index out of range") /\
  training_phase_started (trace_of empty_eval_world) = false.
Proof.
  assert (Hprep : prepared (trace_of empty_eval_world) =
                  [([demo_example; demo_example], [])])
    by (vm_compute; reflexivity).
  destruct (empty_eval_split_fails_before_training empty_eval_world _ Hprep)
    as (_ & Hphase & _ & Hindex).
  split; [ exact Hprep | ].
  split; [ | exact Hphase ].
  apply Hindex. vm_compute. discriminate.
Defined.

(** ** The two probes *)

(** C3. In every run that reaches both probes (the log has two calls of
    [generate_response]), both calls were made on the same example: the
    subscript [eval_dataset[0]] was evaluated once, on the eval sequence
    that [prepare_datasets] returned, and both prompts are the
    ["instruction"] text of the example it gave. *)
Theorem probes_use_the_same_example (w : World) :
  length (probes (trace_of w)) = 2 ->
  probes_share_first_example (trace_of w).
Proof.
  exec w.
  all: cbn [probes flat_map app length]; intros Hlen; try discriminate Hlen.
  all: do 8 eexists.
  all: split; [ reflexivity | ].
  all: split; [ apply index_inr; eassumption | ].
  all: split; [ apply getitem_inr; eassumption | ].
  all: split; [ reflexivity | ].
  all: split; [ reflexivity | ].
  all: cbn; repeat constructor.
Qed.

Lemma probes_use_the_same_example_witness :
  length (probes (trace_of (demo_world (PyBool false) PyNone))) = 2 /\
  probes_share_first_example (trace_of (demo_world (PyBool false) PyNone)).
Proof.
  split; [ vm_compute; reflexivity | ].
  apply probes_use_the_same_example. vm_compute; reflexivity.
Defined.

(** C10. Every probe of a run, before or after training, is made with the
    tokenizer that the one call [load_tokenizer(model_cfg)] of the run
    returned, [model_cfg] being the model section of the run's
    configuration; and nothing that follows [save_model] loads a tokenizer:
    the reload reads the model only. *)
Theorem probes_share_the_tokenizer (w : World) (m : Model) (tok : Tokenizer)
    (p : string) (d : Device) :
  In (m, tok, p, d) (probes (trace_of w)) ->
  exists cfg,
    configs (trace_of w) = [cfg] /\
    tokenizer_loads (trace_of w) = [(Cfg.model cfg, inr tok)] /\
    (forall rest, after_save (trace_of w) = Some rest ->
                  tokenizer_loads rest = []).
Proof.
  exec w.
  all: cbn [probes flat_map app In]; intros Hin.
  all: repeat (destruct Hin as [Hin | Hin]; [ injection Hin as <- <- <- <- | ]).
  all: try (exfalso; exact Hin).
  all: cbn [configs tokenizer_loads after_save flat_map app].
  all: eexists; split; [ reflexivity | ].
  all: split; [ reflexivity | ].
  all: intros rest Hrest; try discriminate Hrest.
  all: injection Hrest as <-; reflexivity.
Qed.

Lemma probes_share_the_tokenizer_witness :
  let w := demo_world (PyBool false) PyNone in
  In (ModelRef 2, TokenizerRef 0, "Say hi", DeviceRef "cpu")
     (probes (trace_of w)) /\
  exists cfg,
    configs (trace_of w) = [cfg] /\
    tokenizer_loads (trace_of w) = [(Cfg.model cfg, inr (TokenizerRef 0))] /\
    (forall rest, after_save (trace_of w) = Some rest ->
                  tokenizer_loads rest = []).
Proof.
  intros w.
  assert (Hin : In (ModelRef 2, TokenizerRef 0, "Say hi", DeviceRef "cpu")
                   (probes (trace_of w)))
    by (vm_compute; right; left; reflexivity).
  split; [ exact Hin | ].
  exact (probes_share_the_tokenizer w _ _ _ _ Hin).
Defined.

(** C1, as stated, fails: with the instruction column configured as
    ["prompt"], and an eval example that has that column and also one
    called ["instruction"], the probes are not sent the text of the
    configured column. *)
Lemma probe_ignores_the_configured_column :
  map DatasetCfg.instruction_column_name
    (map Cfg.dataset (configs (trace_of two_column_world))) = ["prompt"] /\
  ~ probe_reads_column "prompt" (trace_of two_column_world).
Proof.
  split; [ vm_compute; reflexivity | ].
  intros Hreads.
  specialize (Hreads [two_column_example] [two_column_example]
                two_column_example (ModelRef 0) (TokenizerRef 0) "unrelated"
                (DeviceRef "cpu")).
  assert (Hp : two_column_example !! "prompt" = Some "unrelated").
  { apply Hreads.
    - vm_compute; reflexivity.
    - reflexivity.
    - vm_compute. left. reflexivity. }
  vm_compute in Hp. discriminate Hp.
Qed.

(** C1, amended.  Whatever the configuration says, either probe is sent
    the text found under the fixed key ["instruction"] of the first example
    of the eval split; when that example has no such key there is no probe
    at all. *)
Theorem probe_reads_the_instruction_key (w : World)
    (train eval : list Example) (ex : Example) :
  prepared (trace_of w) = [(train, eval)] ->
  eval !! 0 = Some ex ->
  probe_reads_column "instruction" (trace_of w) /\
  (ex !! "instruction" = None -> probes (trace_of w) = []).
Proof.
  intros Hprep Hex.
  assert (Hreads : probe_reads_column "instruction" (trace_of w)).
  { clear. unfold probe_reads_column. exec w.
    all: cbn [prepared probes flat_map app In].
    all: intros xtrain xeval xex xm xtok xp xd Hprep Hex Hin.
    all: try (exfalso; exact Hin).
    all: injection Hprep as <- <-.
    all: match goal with
         | H : index _ _ = inr _ |- _ =>
             apply index_inr in H; rewrite H in Hex; injection Hex as <-
         end.
    all: match goal with
         | H : getitem _ _ = inr _ |- _ => apply getitem_inr in H
         end.
    all: repeat (destruct Hin as [Hin | Hin];
                 [ injection Hin as _ _ <- _; assumption | ]).
    all: contradiction Hin. }
  split; [ exact Hreads | ].
  intros Hnone.
  destruct (probes (trace_of w)) as [ | [[[m tok] p] d] rest ] eqn:Hprobes;
    [ reflexivity | ].
  assert (Hin : In (m, tok, p, d) (probes (trace_of w)))
    by (rewrite Hprobes; left; reflexivity).
  specialize (Hreads train eval ex m tok p d Hprep Hex Hin).
  congruence.
Qed.

Lemma probe_reads_the_instruction_key_witness :
  let w := two_column_world in
  prepared (trace_of w) = [([two_column_example], [two_column_example])] /\
  [two_column_example] !! 0 = Some two_column_example /\
  probe_reads_column "instruction" (trace_of w) /\
  (two_column_example !! "instruction" = None -> probes (trace_of w) = []).
Proof.
  intros w.
  assert (Hprep : prepared (trace_of w) =
                  [([two_column_example], [two_column_example])])
    by (vm_compute; reflexivity).
  split; [ exact Hprep | ].
  split; [ reflexivity | ].
  exact (probe_reads_the_instruction_key w _ _ _ Hprep eq_refl).
Defined.

(** With no ["instruction"] key in the example the run ends in a
    [KeyError], before the first probe. *)
Example key_error_without_instruction_key :
  prompt_example !! "prompt" = Some "Say hi" /\
  result_of prompt_world = inl (KeyError "instruction") /\
  probes (trace_of prompt_world) = [].
Proof.
  repeat match goal with
         | |- _ /\ _ => split
         end; vm_compute; reflexivity.
Qed.

(** ** The output directory *)

(** Whatever path [create_sft_config] or [from_pretrained] is given in a
    run, it is the one path that [setup_output_directory] returned: the
    trainer is configured to write where the reload later reads. *)
Theorem output_dir_is_threaded (w : World) (dir : string) :
  In dir (sft_dirs (trace_of w) ++ reload_paths (trace_of w)) ->
  output_dirs (trace_of w) = [dir].
Proof.
  exec w.
  all: cbn [sft_dirs reload_paths output_dirs flat_map app In]; intros Hin.
  all: repeat (destruct Hin as [<- | Hin]; [ reflexivity | ]).
  all: contradiction Hin.
Qed.

Lemma output_dir_is_threaded_witness :
  let tr := trace_of (demo_world (PyBool false) PyNone) in
  In "./results/run" (sft_dirs tr ++ reload_paths tr) /\
  output_dirs tr = ["./results/run"].
Proof.
  intros tr.
  assert (Hin : In "./results/run" (sft_dirs tr ++ reload_paths tr))
    by (vm_compute; left; reflexivity).
  split; [ exact Hin | ].
  exact (output_dir_is_threaded _ _ Hin).
Defined.

(** ** The trainer *)

(** Whenever [SFTTrainer(...)] is called, it is given the model that
    [load_model] returned, the tokenizer that [load_tokenizer] returned,
    the two sequences that [prepare_datasets] returned, a formatting
    function closed over that same tokenizer, and the configurations that
    [create_peft_config] and [create_sft_config] returned. *)
Theorem trainer_is_built_from_the_loaded_parts (w : World) (m : Model)
    (tok : Tokenizer) (train eval : list Example) (f : FormattingFunc)
    (p : PeftConfig) (s : SftConfig) :
  In (m, tok, train, eval, f, p, s) (trainer_calls (trace_of w)) ->
  loaded_models (trace_of w) = [m] /\
  map snd (tokenizer_loads (trace_of w)) = [inr tok] /\
  prepared (trace_of w) = [(train, eval)] /\
  f = FormattingLambda tok /\
  peft_configs (trace_of w) = [p] /\
  sft_configs (trace_of w) = [s].
Proof.
  exec w.
  all: cbn [trainer_calls flat_map app In]; intros Hin.
  all: repeat (destruct Hin as [Hin | Hin];
               [ injection Hin as <- <- <- <- <- <- <- | ]).
  all: try (exfalso; exact Hin).
  all: repeat split; reflexivity.
Qed.

Lemma trainer_is_built_from_the_loaded_parts_witness :
  let tr := trace_of (demo_world (PyBool false) PyNone) in
  let call := (ModelRef 0, TokenizerRef 0, [demo_example; demo_example],
               [demo_example], FormattingLambda (TokenizerRef 0),
               PeftRef 0, SftRef 0) in
  In call (trainer_calls tr) /\
  loaded_models tr = [ModelRef 0].
Proof.
  intros tr call.
  assert (Hin : In call (trainer_calls tr)) by (vm_compute; left; reflexivity).
  split; [ exact Hin | ].
  exact (proj1 (trainer_is_built_from_the_loaded_parts _ _ _ _ _ _ _ _ Hin)).
Defined.


(** ** The messages of a run *)

(** The messages handed to [logger.info] are, in order, those that the
    f-strings of [main] build.  Before an output directory is returned
    nothing is logged.  From then on, with [cfg] the configuration and
    [dir] the output directory of the run: as long as [prepare_datasets]
    has not returned, what is logged is an initial part of the four
    messages on model id, dataset id, output directory and epochs; once it
    has returned [(train, eval)], those four are all logged, followed by an
    initial part of the two messages on the sizes of [train] and [eval],
    and by both when [main] returns. *)
Theorem messages_report_the_run (w : World) :
  (output_dirs (trace_of w) = [] -> messages (trace_of w) = []) /\
  (forall cfg dir,
     configs (trace_of w) = [cfg] ->
     output_dirs (trace_of w) = [dir] ->
     (prepared (trace_of w) = [] ->
      messages (trace_of w) `prefix_of` config_messages cfg dir) /\
     (forall train eval,
        prepared (trace_of w) = [(train, eval)] ->
        exists sizes,
          messages (trace_of w) = config_messages cfg dir ++ sizes /\
          sizes `prefix_of` size_messages train eval /\
          (result_of w = inr tt -> sizes = size_messages train eval))).
Proof.
  exec w.
  all: cbn [configs output_dirs prepared messages flat_map app].
  all: split; [ intros Hdir; try discriminate Hdir; reflexivity | ].
  all: intros xcfg xdir Hcfg Hdir; try discriminate Hdir.
  all: injection Hcfg as <-; injection Hdir as <-.
  all: unfold config_messages, size_messages.
  all: split;
    [ intros Hprep; try discriminate Hprep; eexists; reflexivity
    | intros xtrain xeval Hprep; try discriminate Hprep ].
  all: injection Hprep as <- <-.
  all: eexists; split; [ reflexivity | ].
  all: split; [ eexists; reflexivity | intros Hok; try discriminate Hok ].
  all: reflexivity.
Qed.

(** On a run that stops at [load_dataset], with an epoch count of [0.5]:
    the four messages of lines 19 to 22 are logged. *)
Example messages_of_a_run_without_dataset :
  configs (trace_of unreachable_dataset_world) = [float_epochs_cfg] /\
  result_of unreachable_dataset_world = inl (DataError "dataset not found") /\
  prepared (trace_of unreachable_dataset_world) = [] /\
  messages (trace_of unreachable_dataset_world) =
    [ "Model ID: org/tiny"; "Dataset ID: org/qa";
      "Output Directory: ./results/run"; "Training Epochs: 0.5" ].
Proof.
  repeat match goal with
         | |- _ /\ _ => split
         end; vm_compute; reflexivity.
Qed.

(** ** Devices and models *)

(** A run uses one device: whatever device is handed to [load_model], to
    [generate_response] or to [.to(...)], it is the device that
    [setup_device_and_quantization] returned, and [load_model] is given the
    quantization configuration that came with it. *)
Theorem one_device_per_run (w : World) (d : Device) :
  In d (devices_used (trace_of w)) ->
  exists q, placements (trace_of w) = [(d, q)] /\
            model_loads (trace_of w) = [(q, d)].
Proof.
  exec w.
  all: cbn [devices_used placements model_loads flat_map app In]; intros Hin.
  all: repeat (destruct Hin as [<- | Hin]; [ eexists; split; reflexivity | ]).
  all: contradiction Hin.
Qed.

Lemma one_device_per_run_witness :
  let tr := trace_of (demo_world (PyBool false) PyNone) in
  In (DeviceRef "cpu") (devices_used tr) /\
  exists q, placements tr = [(DeviceRef "cpu", q)] /\
            model_loads tr = [(q, DeviceRef "cpu")].
Proof.
  intros tr.
  assert (Hin : In (DeviceRef "cpu") (devices_used tr))
    by (vm_compute; left; reflexivity).
  split; [ exact Hin | ].
  exact (one_device_per_run _ _ Hin).
Defined.



(** ** A failed upload *)

(** When [push_to_hub] raises, the run ends with that exception; by then
    [save_model] has returned, nothing but the failed upload follows it in
    the log, the fine-tuned model is not reloaded and there is no second
    probe. *)
Theorem failed_upload_comes_after_the_save (w : World) (t : Trainer)
    (tok : PyValue) (e : Error) :
  In (EvPushToHub t tok (inl e)) (trace_of w) ->
  result_of w = inl e /\
  after_save (trace_of w) = Some [EvPushToHub t tok (inl e)] /\
  trainers (trace_of w) = [t] /\
  reload_paths (trace_of w) = [] /\
  length (probes (trace_of w)) = 1.
Proof.
  exec w.
  all: cbn [In]; intros Hin.
  all: repeat (destruct Hin as [Hin | Hin]; [ try discriminate Hin | ]).
  all: try (exfalso; exact Hin).
  all: injection Hin as <- <- <-.
  all: repeat split; reflexivity.
Qed.

Lemma failed_upload_comes_after_the_save_witness :
  let failed := EvPushToHub (TrainerRef 0) (PyStr "hf_token")
                  (inl (ExternalError "401 Unauthorized")) in
  In failed (trace_of upload_fails_world) /\
  result_of upload_fails_world = inl (ExternalError "401 Unauthorized") /\
  after_save (trace_of upload_fails_world) = Some [failed] /\
  trainers (trace_of upload_fails_world) = [TrainerRef 0] /\
  reload_paths (trace_of upload_fails_world) = [] /\
  length (probes (trace_of upload_fails_world)) = 1.
Proof.
  intros failed.
  assert (Hin : In failed (trace_of upload_fails_world))
    by (vm_compute; in_log).
  split; [ exact Hin | ].
  exact (failed_upload_comes_after_the_save _ _ _ _ Hin).
Defined.


(** ** The order of the calls *)

(** The calls of a run, by what they call, are an initial part of the
    calls of [main] read from top to bottom, with the upload present
    exactly when the condition of line 61 holds, and a run that returns has
    made all of them: no call is made twice at one place and none out of
    order.  Every call but the last one of the run returned: nothing is
    called after a call that raised.  And [main] returns exactly when no
    call raised. *)
Theorem calls_follow_the_script (w : World) :
  kinds (trace_of w) `prefix_of` script (publish_decision (trace_of w)) /\
  errors (removelast (trace_of w)) = [] /\
  (result_of w = inr tt <-> errors (trace_of w) = []) /\
  (result_of w = inr tt ->
   kinds (trace_of w) = script (publish_decision (trace_of w))).
Proof.
  exec w.
  all: cbn [kinds map kind_of publish_decision configs flat_map app].
  all: try match goal with
           | H : py_and _ _ = _ |- _ => rewrite H
           end.
  all: try match goal with
           | |- context [py_and ?x ?y] => destruct (py_and x y)
           end.
  all: split; [ eexists; reflexivity | ].
  all: split; [ reflexivity | ].
  all: split;
    [ split; intros Hok; try discriminate Hok; reflexivity
    | intros Hok; try discriminate Hok; reflexivity ].
Qed.

(** ** Printing *)

(** Every response handed to [print_response] is one that
    [generate_response] returned, in the same order; a run that returns has
    printed both responses, each after its own probe. *)
Theorem printed_responses_are_the_generated_ones (w : World) :
  printed_responses (trace_of w) `prefix_of` generated (trace_of w) /\
  (result_of w = inr tt ->
   printed_responses (trace_of w) = generated (trace_of w) /\
   length (generated (trace_of w)) = 2).
Proof.
  exec w.
  all: cbn [printed_responses generated flat_map app length].
  all: split; [ eexists; reflexivity | intros Hok; try discriminate Hok ].
  all: split; reflexivity.
Qed.

(** ** One configuration, one dataset *)

(** Every call that is given a piece of configuration is given the
    corresponding piece of the one configuration [get_config] returned:
    the three sections for the output directory, the dataset id for
    [load_dataset], the two configured column names for
    [prepare_datasets], the model section for the tokenizer, the device,
    the model and the adapter configuration, the training arguments for
    [create_sft_config], and the token for [push_to_hub]; and [get_config]
    itself is asked for the model name that was parsed. *)
Theorem calls_use_the_configuration (w : World) (cfg : Cfg.t) :
  configs (trace_of w) = [cfg] ->
  Forall (uses_cfg cfg) (trace_of w) /\
  config_requests (trace_of w) = map Args.model (parsed (trace_of w)).
Proof.
  exec w.
  all: cbn [configs config_requests parsed flat_map app map].
  all: intros Hcfg; try discriminate Hcfg; injection Hcfg as <-.
  all: split; [ | reflexivity ].
  all: repeat (constructor; [ cbn [uses_cfg]; auto | ]).
  all: constructor.
Qed.

Lemma calls_use_the_configuration_witness :
  let w := demo_world (PyBool true) (PyStr "hf_token") in
  let cfg := demo_cfg "instruction" (PyBool true) (PyStr "hf_token") in
  configs (trace_of w) = [cfg] /\
  Forall (uses_cfg cfg) (trace_of w) /\
  config_requests (trace_of w) = map Args.model (parsed (trace_of w)).
Proof.
  intros w cfg.
  assert (Hcfg : configs (trace_of w) = [cfg]) by (vm_compute; reflexivity).
  split; [ exact Hcfg | ].
  exact (calls_use_the_configuration w cfg Hcfg).
Defined.

(** Whenever [prepare_datasets] is called, it is given the dataset that
    [load_dataset] returned. *)
Theorem prepared_dataset_is_the_loaded_one (w : World) (ds : Dataset) :
  In ds (prepared_from (trace_of w)) ->
  loaded_datasets (trace_of w) = [ds].
Proof.
  exec w.
  all: cbn [prepared_from loaded_datasets flat_map app In]; intros Hin.
  all: repeat (destruct Hin as [<- | Hin]; [ reflexivity | ]).
  all: contradiction Hin.
Qed.

Lemma prepared_dataset_is_the_loaded_one_witness :
  let tr := trace_of (demo_world (PyBool false) PyNone) in
  In demo_dataset (prepared_from tr) /\ loaded_datasets tr = [demo_dataset].
Proof.
  intros tr.
  assert (Hin : In demo_dataset (prepared_from tr))
    by (vm_compute; left; reflexivity).
  split; [ exact Hin | ].
  exact (prepared_dataset_is_the_loaded_one _ _ Hin).
Defined.


(** ** What comes before training and before the reload *)

(** The training phase never starts without the pre-training probe: when
    the log has any entry of adapter or trainer configuration, trainer
    construction or trainer operation, the base model was probed, the
    probe returned, and both its example and its response were printed. *)
Theorem training_needs_the_first_probe (w : World) :
  training_phase_started (trace_of w) = true ->
  exists m tok p d r ex,
    loaded_models (trace_of w) = [m] /\
    head (probes (trace_of w)) = Some (m, tok, p, d) /\
    head (generated (trace_of w)) = Some r /\
    In (EvPrintExample ex (inr tt)) (trace_of w) /\
    In (EvPrintResponse r (inr tt)) (trace_of w).
Proof.
  exec w.
  all: cbn [training_phase_started existsb orb]; intros Hstarted;
    try discriminate Hstarted.
  all: do 6 eexists.
  all: split; [ reflexivity | ].
  all: split; [ reflexivity | ].
  all: split; [ reflexivity | ].
  all: split; in_log.
Qed.

Lemma training_needs_the_first_probe_witness :
  training_phase_started (trace_of oom_world) = true /\
  exists m tok p d r ex,
    loaded_models (trace_of oom_world) = [m] /\
    head (probes (trace_of oom_world)) = Some (m, tok, p, d) /\
    head (generated (trace_of oom_world)) = Some r /\
    In (EvPrintExample ex (inr tt)) (trace_of oom_world) /\
    In (EvPrintResponse r (inr tt)) (trace_of oom_world).
Proof.
  assert (Hstarted : training_phase_started (trace_of oom_world) = true)
    by (vm_compute; reflexivity).
  split; [ exact Hstarted | ].
  exact (training_needs_the_first_probe _ Hstarted).
Defined.

(** The fine-tuned model is only reloaded after the work is done: when
    [from_pretrained] is called at all, [train], [evaluate] and
    [save_model] have returned on the one trainer of the run, and the
    upload, if the run made one, has returned too. *)
Theorem reload_comes_after_the_save (w : World) :
  reload_paths (trace_of w) <> [] ->
  exists t,
    trainers (trace_of w) = [t] /\
    In (EvTrain t (inr tt)) (trace_of w) /\
    In (EvEvaluate t (inr tt)) (trace_of w) /\
    In (EvSaveModel t (inr tt)) (trace_of w) /\
    (forall t' tok, In (t', tok) (pushes (trace_of w)) ->
                    In (EvPushToHub t' tok (inr tt)) (trace_of w)).
Proof.
  exec w.
  all: cbn [reload_paths pushes flat_map app]; intros Hreload.
  all: try (contradiction Hreload; reflexivity).
  all: eexists.
  all: split; [ reflexivity | ].
  all: split; [ in_log | ].
  all: split; [ in_log | ].
  all: split; [ in_log | ].
  all: intros xt xtok Hin; cbn [In] in Hin.
  all: repeat (destruct Hin as [Hin | Hin];
               [ injection Hin as <- <-; in_log | ]).
  all: contradiction Hin.
Qed.

Lemma reload_comes_after_the_save_witness :
  let tr := trace_of (demo_world (PyBool true) (PyStr "hf_token")) in
  reload_paths tr <> [] /\
  exists t,
    trainers tr = [t] /\
    In (EvTrain t (inr tt)) tr /\
    In (EvEvaluate t (inr tt)) tr /\
    In (EvSaveModel t (inr tt)) tr /\
    (forall t' tok, In (t', tok) (pushes tr) ->
                    In (EvPushToHub t' tok (inr tt)) tr).
Proof.
  intros tr.
  assert (Hreload : reload_paths tr <> []) by (vm_compute; discriminate).
  split; [ exact Hreload | ].
  exact (reload_comes_after_the_save _ Hreload).
Defined.
